(** * Airsoft-HUD: the debounced button and the state toggle timer

    A shallow embedding of [src/Button.h] and [src/StateToggleTimer.h].

    Both classes are small state machines over a handful of flags and
    one or two [unsigned long] millisecond time stamps.  Every member
    function becomes a function on a record of the class's fields; a
    member that also returns a value yields a pair (result, new object).
    The two things the code reads from the platform, [millis()] and
    [digitalRead(m_pin)], are passed in as arguments of the member that
    reads them.

    [unsigned long] is the 32-bit type of the Arduino cores.  It is
    modelled as [Z] with the wrap-around of subtraction written out.

    A history of an object is a list of calls; each call runs to its
    end before the next one starts (the interrupt handler is not
    interleaved with the body of a polling call). *)

From Stdlib Require Import ZArith Bool List Lia.
Import ListNotations.

Local Open Scope Z_scope.

(** ** Unsigned 32-bit arithmetic *)

Module ULong.

Definition bits : Z := 32.
Definition modulus : Z := 2 ^ bits.
Definition max : Z := modulus - 1.

(** Conversion of an integer to [unsigned long]. *)
Definition wrap (z : Z) : Z := z mod modulus.

(** [a - b] on [unsigned long] operands. *)
Definition sub (a b : Z) : Z := wrap (a - b).

(** [a + b] on [unsigned long] operands. *)
Definition add (a b : Z) : Z := wrap (a + b).

Definition in_range (z : Z) : Prop := 0 <= z < modulus.

End ULong.

(** Digital levels as [digitalRead] converts them to [bool]. *)
Definition LOW : bool := false.
Definition HIGH : bool := true.

(** ** Button.h *)

Module Button.

Definition debounceDelay : Z := 50.
Definition longPressDelay : Z := 1000.
Definition bIsPressed : bool := LOW.

Record Button : Type := mkButton {
  m_pin : Z;
  lastStateChangeTime : Z;
  lastState : bool;
  m_bIsPressed : bool;
  m_bWasPressed : bool;
  m_bWasLongPressed : bool;
  m_bReset : bool
}.

(** Assignments to a single member. *)

Definition set_lastStateChangeTime (v : Z) (b : Button) : Button :=
  mkButton (m_pin b) v (lastState b) (m_bIsPressed b) (m_bWasPressed b)
           (m_bWasLongPressed b) (m_bReset b).

Definition set_lastState (v : bool) (b : Button) : Button :=
  mkButton (m_pin b) (lastStateChangeTime b) v (m_bIsPressed b)
           (m_bWasPressed b) (m_bWasLongPressed b) (m_bReset b).

Definition set_m_bIsPressed (v : bool) (b : Button) : Button :=
  mkButton (m_pin b) (lastStateChangeTime b) (lastState b) v
           (m_bWasPressed b) (m_bWasLongPressed b) (m_bReset b).

Definition set_m_bWasPressed (v : bool) (b : Button) : Button :=
  mkButton (m_pin b) (lastStateChangeTime b) (lastState b) (m_bIsPressed b)
           v (m_bWasLongPressed b) (m_bReset b).

Definition set_m_bWasLongPressed (v : bool) (b : Button) : Button :=
  mkButton (m_pin b) (lastStateChangeTime b) (lastState b) (m_bIsPressed b)
           (m_bWasPressed b) v (m_bReset b).

Definition set_m_bReset (v : bool) (b : Button) : Button :=
  mkButton (m_pin b) (lastStateChangeTime b) (lastState b) (m_bIsPressed b)
           (m_bWasPressed b) (m_bWasLongPressed b) v.

(** The constructor.  It assigns every member except [m_bReset]; the
    value that member holds afterwards is whatever the storage held
    ([false] for the zero-initialised globals that [DefineButton]
    declares), so it is an argument here.  [millis] is the clock
    reading taken by the constructor. *)
Definition new (pin : Z) (millis : Z) (reset0 : bool) : Button :=
  {| m_pin := pin;
     lastStateChangeTime := millis;
     lastState := negb bIsPressed;
     m_bIsPressed := false;
     m_bWasPressed := false;
     m_bWasLongPressed := false;
     m_bReset := reset0 |}.

Definition Reset (b : Button) : Button :=
  set_m_bWasPressed false (set_m_bIsPressed false (set_m_bReset true b)).

Definition IsPressed (b : Button) : bool := m_bIsPressed b.

Definition WasPressed (b : Button) : bool * Button :=
  if m_bWasPressed b then (true, set_m_bWasPressed false b)
  else (false, b).

Definition WasLongPressed (b : Button) : bool * Button :=
  if m_bWasLongPressed b then (true, set_m_bWasLongPressed false b)
  else (false, b).

(** The interrupt handler.  [now] is the value [millis()] returns and
    [pinLevel] the value [digitalRead(m_pin)] returns (the latter is
    only looked at once the debounce test has passed). *)
Definition onInterrupt (now : Z) (pinLevel : bool) (b : Button) : Button :=
  let timeSinceLastStateChange := ULong.sub now (lastStateChangeTime b) in
  if timeSinceLastStateChange >? debounceDelay then
    let currentState := pinLevel in
    if negb (Bool.eqb currentState (lastState b)) then
      let b := set_lastStateChangeTime now b in
      let b := set_lastState currentState b in
      let b := set_m_bIsPressed (Bool.eqb currentState bIsPressed) b in
      let b :=
        if negb (Bool.eqb currentState bIsPressed) then
          let b := set_m_bWasPressed true b in
          if timeSinceLastStateChange >? longPressDelay
          then set_m_bWasLongPressed true b
          else set_m_bWasLongPressed false b
        else set_m_bWasLongPressed false b in
      if m_bReset b then
        let b := set_m_bReset false b in
        let b := set_m_bIsPressed false b in
        let b := set_m_bWasPressed false b in
        set_m_bWasLongPressed false b
      else b
    else b
  else b.

(** *** Observations used to state the properties *)

(** The time the handler measures: [now - lastStateChangeTime]. *)
Definition elapsed (now : Z) (b : Button) : Z :=
  ULong.sub now (lastStateChangeTime b).

(** The handler accepts a level change: the debounce test passes and
    the level read differs from the last accepted one. *)
Definition accepts (now : Z) (pinLevel : bool) (b : Button) : bool :=
  (elapsed now b >? debounceDelay) && negb (Bool.eqb pinLevel (lastState b)).

(** The level read is a release, resp. a press. *)
Definition is_release (pinLevel : bool) : bool :=
  negb (Bool.eqb pinLevel bIsPressed).

(** *** Sequences of calls

    The object is used from a polling loop and from the interrupt; a
    history of its use is a list of calls, each with what it read
    from the platform. *)

Inductive call : Type :=
| CallReset
| CallIsPressed
| CallWasPressed
| CallWasLongPressed
| CallInterrupt (now : Z) (pinLevel : bool).

Definition exec (c : call) (b : Button) : option bool * Button :=
  match c with
  | CallReset => (None, Reset b)
  | CallIsPressed => (Some (IsPressed b), b)
  | CallWasPressed => let (r, b') := WasPressed b in (Some r, b')
  | CallWasLongPressed => let (r, b') := WasLongPressed b in (Some r, b')
  | CallInterrupt now pinLevel => (None, onInterrupt now pinLevel b)
  end.

Fixpoint run (cs : list call) (b : Button) : Button :=
  match cs with
  | [] => b
  | c :: cs' => run cs' (snd (exec c b))
  end.

(** [all_calls ok cs b]: every call of [cs], taken in the state in
    which it is made, satisfies [ok]. *)
Fixpoint all_calls (ok : call -> Button -> bool) (cs : list call)
         (b : Button) : bool :=
  match cs with
  | [] => true
  | c :: cs' => ok c b && all_calls ok cs' (snd (exec c b))
  end.

(** The call is not an interrupt that accepts a level change. *)
Definition not_accepted (c : call) (b : Button) : bool :=
  match c with
  | CallInterrupt now pinLevel => negb (accepts now pinLevel b)
  | _ => true
  end.

(** The call is not an interrupt that accepts a release. *)
Definition not_accepted_release (c : call) (b : Button) : bool :=
  match c with
  | CallInterrupt now pinLevel =>
      negb (accepts now pinLevel b && is_release pinLevel)
  | _ => true
  end.

Definition not_Reset (c : call) (b : Button) : bool :=
  match c with CallReset => false | _ => true end.

Definition not_WasLongPressed (c : call) (b : Button) : bool :=
  match c with CallWasLongPressed => false | _ => true end.

(** A read by the polling loop or an interrupt the handler ignores. *)
Definition poll_or_bounce (c : call) (b : Button) : bool :=
  not_accepted c b && not_Reset c b.

(** Anything but an accepted level change or a read of the
    long-press latch. *)
Definition keeps_long_latch (c : call) (b : Button) : bool :=
  not_accepted c b && not_WasLongPressed c b.

End Button.

(** ** StateToggleTimer.h *)

Module StateToggleTimer.

Record StateToggleTimer : Type := mkStateToggleTimer {
  m_bIsOn : bool;
  m_bPreviousState : bool;
  m_bHasStarted : bool;
  m_duration : Z;
  m_timer : Z
}.

Definition set_m_bIsOn (v : bool) (t : StateToggleTimer) : StateToggleTimer :=
  mkStateToggleTimer v (m_bPreviousState t) (m_bHasStarted t)
                     (m_duration t) (m_timer t).

Definition set_m_bPreviousState (v : bool) (t : StateToggleTimer)
  : StateToggleTimer :=
  mkStateToggleTimer (m_bIsOn t) v (m_bHasStarted t)
                     (m_duration t) (m_timer t).

Definition set_m_bHasStarted (v : bool) (t : StateToggleTimer)
  : StateToggleTimer :=
  mkStateToggleTimer (m_bIsOn t) (m_bPreviousState t) v
                     (m_duration t) (m_timer t).

Definition set_m_duration (v : Z) (t : StateToggleTimer) : StateToggleTimer :=
  mkStateToggleTimer (m_bIsOn t) (m_bPreviousState t) (m_bHasStarted t)
                     v (m_timer t).

Definition set_m_timer (v : Z) (t : StateToggleTimer) : StateToggleTimer :=
  mkStateToggleTimer (m_bIsOn t) (m_bPreviousState t) (m_bHasStarted t)
                     (m_duration t) v.

(** The constructor; [millis] is the clock reading it takes. *)
Definition new (duration : Z) (millis : Z) : StateToggleTimer :=
  {| m_bIsOn := false;
     m_bPreviousState := false;
     m_bHasStarted := false;
     m_duration := duration;
     m_timer := millis |}.

Definition IsOn (t : StateToggleTimer) : bool := m_bIsOn t.
Definition HasStarted (t : StateToggleTimer) : bool := m_bHasStarted t.

Definition SetDuration (duration : Z) (t : StateToggleTimer)
  : StateToggleTimer :=
  set_m_duration duration t.

(** [millis] is the clock reading [Start] takes. *)
Definition Start (millis : Z) (t : StateToggleTimer) : StateToggleTimer :=
  set_m_timer millis (set_m_bHasStarted true (set_m_bIsOn true t)).

Definition Stop (t : StateToggleTimer) : StateToggleTimer :=
  set_m_bHasStarted false (set_m_bIsOn true t).

Definition Update (now : Z) (t : StateToggleTimer) : StateToggleTimer :=
  if m_bHasStarted t then
    if ULong.sub now (m_timer t) >? m_duration t then
      let t := set_m_timer now t in
      set_m_bIsOn (negb (m_bIsOn t)) t
    else t
  else set_m_bIsOn true t.

Definition HasStateChanged (t : StateToggleTimer) : bool * StateToggleTimer :=
  let bChanged := negb (Bool.eqb (m_bPreviousState t) (m_bIsOn t)) in
  let t := set_m_bPreviousState (m_bIsOn t) t in
  (bChanged, t).

(** *** Sequences of calls *)

Inductive call : Type :=
| CallSetDuration (duration : Z)
| CallStart (millis : Z)
| CallStop
| CallUpdate (now : Z)
| CallHasStateChanged.

Definition exec (c : call) (t : StateToggleTimer) : StateToggleTimer :=
  match c with
  | CallSetDuration d => SetDuration d t
  | CallStart millis => Start millis t
  | CallStop => Stop t
  | CallUpdate now => Update now t
  | CallHasStateChanged => snd (HasStateChanged t)
  end.

Definition run (cs : list call) (t : StateToggleTimer) : StateToggleTimer :=
  fold_left (fun t c => exec c t) cs t.

(** The calls that assign [m_bIsOn]. *)
Definition writes_state (c : call) : bool :=
  match c with
  | CallStart _ | CallStop | CallUpdate _ => true
  | CallSetDuration _ | CallHasStateChanged => false
  end.

Definition not_HasStateChanged (c : call) : bool :=
  match c with CallHasStateChanged => false | _ => true end.

(** A timer that is not started is on.  (Once a call has assigned the
    state this holds for good: the only assignment of [false] after
    construction is the flip of a started timer.) *)
Definition idle_on (t : StateToggleTimer) : Prop :=
  m_bHasStarted t = false -> m_bIsOn t = true.

(** [Update] called once for each reading of the clock, in order. *)
Definition updates (nows : list Z) (t : StateToggleTimer) : StateToggleTimer :=
  run (map CallUpdate nows) t.

End StateToggleTimer.

(** ** Histories of a button *)

Module ButtonHistory.
Import Button.

(** The level an interrupt makes the accepted one, if the handler
    accepts a level change at this call. *)
Definition accepted_level (c : call) (b : Button) : option bool :=
  match c with
  | CallInterrupt now pinLevel =>
      if accepts now pinLevel b then Some pinLevel else None
  | _ => None
  end.

(** The levels accepted in the course of a history, oldest first. *)
Fixpoint accepted_levels (cs : list call) (b : Button) : list bool :=
  match cs with
  | [] => []
  | c :: cs' =>
      match accepted_level c b with
      | Some l => l :: accepted_levels cs' (snd (exec c b))
      | None => accepted_levels cs' (snd (exec c b))
      end
  end.

Definition not_WasPressed (c : call) (b : Button) : bool :=
  match c with CallWasPressed => false | _ => true end.

(** Anything but [Reset] or a read of the was-pressed latch:
    interrupts, accepted or not, and the other reads. *)
Definition keeps_pressed_latch (c : call) (b : Button) : bool :=
  not_Reset c b && not_WasPressed c b.

(** [ls] is [first], [negb first], [first], ... *)
Fixpoint alternating (first : bool) (ls : list bool) : bool :=
  match ls with
  | [] => true
  | l :: ls' => Bool.eqb l first && alternating (negb first) ls'
  end.

(** The flags agree with the accepted level: the button is reported
    pressed only at the pressed level, and the long-press latch is held
    only at the released level. *)
Definition flags_agree (b : Button) : Prop :=
  (m_bIsPressed b = true -> lastState b = bIsPressed)
  /\ (m_bWasLongPressed b = true -> lastState b = negb bIsPressed).

End ButtonHistory.

(** ** Histories of a timer *)

Module TimerHistory.
Import StateToggleTimer.

(** The clock readings [t0 + step], [t0 + 2 step], ..., [t0 + n step],
    as [unsigned long] values. *)
Definition poll_times (t0 step : Z) (n : nat) : list Z :=
  map (fun k => ULong.wrap (t0 + Z.of_nat k * step)) (seq 1 n).

Definition not_SetDuration (c : call) : bool :=
  match c with CallSetDuration _ => false | _ => true end.

Definition not_Start_or_Stop (c : call) : bool :=
  match c with CallStart _ | CallStop => false | _ => true end.

End TimerHistory.

(** * Properties *)

(** ** Facts about unsigned arithmetic *)

Module ULongFacts.
Import ULong.

Lemma modulus_eq : modulus = 4294967296.
Proof. reflexivity. Qed.

Lemma sub_diag (a : Z) : sub a a = 0.
Proof. unfold sub, wrap. rewrite Z.sub_diag. reflexivity. Qed.

(** Subtracting the base from a wrapped sum gives back the offset,
    whatever the base: this is why [now - past] survives a wrap of the
    millisecond clock. *)
Lemma sub_wrap_add (base off : Z) :
  in_range off -> sub (wrap (base + off)) base = off.
Proof.
  unfold sub, wrap, in_range. intros H.
  rewrite Zminus_mod_idemp_l.
  replace (base + off - base) with off by lia.
  apply Z.mod_small. exact H.
Qed.

Lemma sub_wrap_wrap (base off1 off2 : Z) :
  in_range (off2 - off1) ->
  sub (wrap (base + off2)) (wrap (base + off1)) = off2 - off1.
Proof.
  unfold sub, wrap, in_range. intros H.
  rewrite <- Zminus_mod, Z.mod_small; lia.
Qed.

(** The unsigned comparison [a > b] of the sources, as a proposition. *)
Lemma gtb_false_le (a b : Z) : (a >? b) = false <-> a <= b.
Proof. rewrite Z.gtb_ltb, Z.ltb_ge. reflexivity. Qed.

Lemma gtb_true_lt (a b : Z) : (a >? b) = true <-> b < a.
Proof. rewrite Z.gtb_ltb, Z.ltb_lt. reflexivity. Qed.

End ULongFacts.

(** ** Button *)

Module ButtonSpec.
Import Button ButtonHistory.

(** Unfold the handler and decide its tests. *)
Ltac handler :=
  unfold onInterrupt, accepts, elapsed, is_release, bIsPressed, LOW, HIGH in *;
  cbn [m_pin lastStateChangeTime lastState m_bIsPressed m_bWasPressed
       m_bWasLongPressed m_bReset set_lastStateChangeTime set_lastState
       set_m_bIsPressed set_m_bWasPressed set_m_bWasLongPressed
       set_m_bReset] in *.

(** An interrupt that does not accept a level change is a no-op. *)
Lemma onInterrupt_not_accepted (now : Z) (pinLevel : bool) (b : Button) :
  accepts now pinLevel b = false -> onInterrupt now pinLevel b = b.
Proof.
  handler. intros H.
  destruct (ULong.sub now (lastStateChangeTime b) >? debounceDelay);
    [ | reflexivity ].
  cbn in H. rewrite H. reflexivity.
Qed.

(** What an accepted level change stores, member by member. *)
Lemma onInterrupt_accepted (now : Z) (pinLevel : bool) (b : Button) :
  accepts now pinLevel b = true ->
  onInterrupt now pinLevel b =
    {| m_pin := m_pin b;
       lastStateChangeTime := now;
       lastState := pinLevel;
       m_bIsPressed := negb (m_bReset b) && Bool.eqb pinLevel bIsPressed;
       m_bWasPressed :=
         negb (m_bReset b) &&
         (if is_release pinLevel then true else m_bWasPressed b);
       m_bWasLongPressed :=
         negb (m_bReset b) && is_release pinLevel &&
         (elapsed now b >? longPressDelay);
       m_bReset := false |}.
Proof.
  handler. intros H. apply andb_prop in H. destruct H as [Hd Hc].
  rewrite Hd, Hc.
  destruct b as [pin t st ip wp wl rs]; cbn in *.
  destruct pinLevel, rs, (ULong.sub now t >? longPressDelay); reflexivity.
Qed.

(** A property kept by every permitted call is kept by a run of them. *)
Lemma run_invariant (ok : call -> Button -> bool) (P : Button -> Prop) :
  (forall c b, ok c b = true -> P b -> P (snd (exec c b))) ->
  forall cs b, all_calls ok cs b = true -> P b -> P (run cs b).
Proof.
  intros Hstep cs. induction cs as [ | c cs IH ]; intros b Hok HP; cbn in *.
  - exact HP.
  - apply andb_prop in Hok. destruct Hok as [Hc Hcs].
    apply IH; [ exact Hcs | ]. apply Hstep; assumption.
Qed.

Lemma WasPressed_m_bReset (b : Button) :
  m_bReset (snd (WasPressed b)) = m_bReset b.
Proof. unfold WasPressed. destruct (m_bWasPressed b); reflexivity. Qed.

Lemma WasLongPressed_m_bReset (b : Button) :
  m_bReset (snd (WasLongPressed b)) = m_bReset b.
Proof. unfold WasLongPressed. destruct (m_bWasLongPressed b); reflexivity. Qed.

Lemma WasPressed_m_bWasLongPressed (b : Button) :
  m_bWasLongPressed (snd (WasPressed b)) = m_bWasLongPressed b.
Proof. unfold WasPressed. destruct (m_bWasPressed b); reflexivity. Qed.

Lemma WasPressed_fst (b : Button) : fst (WasPressed b) = m_bWasPressed b.
Proof. unfold WasPressed. destruct (m_bWasPressed b); reflexivity. Qed.

Lemma WasPressed_clears (b : Button) :
  m_bWasPressed (snd (WasPressed b)) = false.
Proof.
  unfold WasPressed. destruct (m_bWasPressed b) eqn:E; cbn; [ reflexivity | exact E ].
Qed.

Lemma WasLongPressed_fst (b : Button) :
  fst (WasLongPressed b) = m_bWasLongPressed b.
Proof. unfold WasLongPressed. destruct (m_bWasLongPressed b); reflexivity. Qed.

Lemma WasLongPressed_clears (b : Button) :
  m_bWasLongPressed (snd (WasLongPressed b)) = false.
Proof.
  unfold WasLongPressed.
  destruct (m_bWasLongPressed b) eqn:E; cbn; [ reflexivity | exact E ].
Qed.

Lemma exec_snd_WasPressed (b : Button) :
  snd (exec CallWasPressed b) = snd (WasPressed b).
Proof. cbn. destruct (WasPressed b); reflexivity. Qed.

Lemma exec_snd_WasLongPressed (b : Button) :
  snd (exec CallWasLongPressed b) = snd (WasLongPressed b).
Proof. cbn. destruct (WasLongPressed b); reflexivity. Qed.

(** A pending reset stays pending until a level change is accepted. *)
Lemma run_not_accepted_m_bReset (cs : list call) (b : Button) :
  all_calls not_accepted cs b = true -> m_bReset b = true ->
  m_bReset (run cs b) = true.
Proof.
  apply (run_invariant not_accepted (fun b => m_bReset b = true)).
  clear. intros c b Hq Hr. destruct c as [ | | | | now pinLevel ].
  - reflexivity.
  - exact Hr.
  - rewrite exec_snd_WasPressed, WasPressed_m_bReset. exact Hr.
  - rewrite exec_snd_WasLongPressed, WasLongPressed_m_bReset. exact Hr.
  - cbn in *. apply negb_true_iff in Hq.
    rewrite (onInterrupt_not_accepted _ _ _ Hq). exact Hr.
Qed.

(** Reads and ignored interrupts leave no reset pending if none was. *)
Lemma run_poll_or_bounce_m_bReset (cs : list call) (b : Button) :
  all_calls poll_or_bounce cs b = true -> m_bReset b = false ->
  m_bReset (run cs b) = false.
Proof.
  apply (run_invariant poll_or_bounce (fun b => m_bReset b = false)).
  clear. intros c b Hq Hr. unfold poll_or_bounce in Hq.
  apply andb_prop in Hq. destruct Hq as [Hq Hn].
  destruct c as [ | | | | now pinLevel ].
  - discriminate Hn.
  - exact Hr.
  - rewrite exec_snd_WasPressed, WasPressed_m_bReset. exact Hr.
  - rewrite exec_snd_WasLongPressed, WasLongPressed_m_bReset. exact Hr.
  - cbn in *. apply negb_true_iff in Hq.
    rewrite (onInterrupt_not_accepted _ _ _ Hq). exact Hr.
Qed.

(** Without an accepted release the was-pressed latch stays clear. *)
Lemma run_no_release_m_bWasPressed (cs : list call) (b : Button) :
  all_calls not_accepted_release cs b = true -> m_bWasPressed b = false ->
  m_bWasPressed (run cs b) = false.
Proof.
  apply (run_invariant not_accepted_release
           (fun b => m_bWasPressed b = false)).
  clear. intros c b Hq Hr. destruct c as [ | | | | now pinLevel ].
  - reflexivity.
  - exact Hr.
  - rewrite exec_snd_WasPressed. apply WasPressed_clears.
  - cbn. unfold WasLongPressed.
    destruct (m_bWasLongPressed b); cbn; exact Hr.
  - cbn in *. destruct (accepts now pinLevel b) eqn:Ha.
    + rewrite (onInterrupt_accepted _ _ _ Ha). cbn.
      cbn in Hq. apply negb_true_iff in Hq. rewrite Hq, Hr.
      apply andb_false_r.
    + rewrite (onInterrupt_not_accepted _ _ _ Ha). exact Hr.
Qed.

(** The long-press latch is only written by an accepted level change
    and by its own read. *)
Lemma run_keeps_long_latch (cs : list call) (b : Button) (v : bool) :
  all_calls keeps_long_latch cs b = true -> m_bWasLongPressed b = v ->
  m_bWasLongPressed (run cs b) = v.
Proof.
  apply (run_invariant keeps_long_latch (fun b => m_bWasLongPressed b = v)).
  clear. intros c b Hq Hr. unfold keeps_long_latch in Hq.
  apply andb_prop in Hq. destruct Hq as [Hq Hn].
  destruct c as [ | | | | now pinLevel ].
  - exact Hr.
  - exact Hr.
  - rewrite exec_snd_WasPressed, WasPressed_m_bWasLongPressed. exact Hr.
  - discriminate Hn.
  - cbn in *. apply negb_true_iff in Hq.
    rewrite (onInterrupt_not_accepted _ _ _ Hq). exact Hr.
Qed.

(** C1: an interrupt arriving when the time since the last accepted
    level change does not exceed the debounce delay (50 ms) leaves
    the whole object as it was, whatever level the pin shows: the
    accepted level, the time stamp of the last accepted change, the
    is-pressed level, the was-pressed and was-long-pressed latches
    (and the pending reset). *)
Theorem onInterrupt_within_debounce_is_ignored
  (now : Z) (pinLevel : bool) (b : Button) :
  elapsed now b <= debounceDelay ->
  onInterrupt now pinLevel b = b
  /\ lastState (onInterrupt now pinLevel b) = lastState b
  /\ lastStateChangeTime (onInterrupt now pinLevel b) = lastStateChangeTime b
  /\ m_bIsPressed (onInterrupt now pinLevel b) = m_bIsPressed b
  /\ m_bWasPressed (onInterrupt now pinLevel b) = m_bWasPressed b
  /\ m_bWasLongPressed (onInterrupt now pinLevel b) = m_bWasLongPressed b.
Proof.
  intros H.
  assert (E : onInterrupt now pinLevel b = b).
  { apply onInterrupt_not_accepted. unfold accepts.
    apply ULongFacts.gtb_false_le in H. rewrite H. reflexivity. }
  rewrite E. repeat split.
Qed.

Lemma onInterrupt_within_debounce_is_ignored_witness :
  let b := onInterrupt 100 LOW (new 2 0 false) in
  elapsed 130 b <= debounceDelay
  /\ m_bIsPressed b = true
  /\ onInterrupt 130 HIGH b = b.
Proof.
  cbv zeta. split; [ | split ].
  - vm_compute. discriminate.
  - reflexivity.
  - apply (onInterrupt_within_debounce_is_ignored 130 HIGH
             (onInterrupt 100 LOW (new 2 0 false))).
    vm_compute. discriminate.
Defined.

(** C2, as stated, fails when a reset is pending: the button is
    pressed at 100 ms, [Reset] is called while it is held, and the
    release is accepted 2000 ms after the press.  The release is an
    accepted level change of more than 1000 ms, yet both latches are
    clear afterwards. *)
Lemma accepted_release_with_pending_reset_latches_nothing :
  let b := run [CallInterrupt 100 LOW; CallReset] (new 2 0 false) in
  accepts 2100 HIGH b = true
  /\ is_release HIGH = true
  /\ elapsed 2100 b = 2000
  /\ m_bWasPressed (onInterrupt 2100 HIGH b) <> true
  /\ m_bWasLongPressed (onInterrupt 2100 HIGH b) <> true.
Proof.
  cbv zeta. repeat split; try reflexivity; vm_compute; discriminate.
Qed.

(** C2 (amended): with no reset pending, an accepted level change that
    is a release sets the was-pressed latch, and sets the
    was-long-pressed latch exactly when the time since the last
    accepted change strictly exceeds 1000 ms; at or below 1000 ms the
    was-long-pressed latch is false afterwards. *)
Theorem accepted_release_sets_latches
  (now : Z) (pinLevel : bool) (b : Button) :
  m_bReset b = false ->
  accepts now pinLevel b = true ->
  is_release pinLevel = true ->
  let b' := onInterrupt now pinLevel b in
  m_bWasPressed b' = true
  /\ (m_bWasLongPressed b' = true <-> longPressDelay < elapsed now b)
  /\ (elapsed now b <= longPressDelay -> m_bWasLongPressed b' = false).
Proof.
  intros Hr Ha Hrel b'. subst b'.
  rewrite (onInterrupt_accepted _ _ _ Ha). cbn.
  rewrite Hr, Hrel. cbn. split; [ reflexivity | ]. split.
  - apply ULongFacts.gtb_true_lt.
  - apply ULongFacts.gtb_false_le.
Qed.

Lemma accepted_release_sets_latches_witness :
  let b := onInterrupt 100 LOW (new 2 0 false) in
  (m_bWasPressed (onInterrupt 1101 HIGH b) = true
   /\ m_bWasLongPressed (onInterrupt 1101 HIGH b) = true)
  /\ (m_bWasPressed (onInterrupt 1100 HIGH b) = true
      /\ m_bWasLongPressed (onInterrupt 1100 HIGH b) = false).
Proof.
  cbv zeta. split.
  - destruct (accepted_release_sets_latches 1101 HIGH
                (onInterrupt 100 LOW (new 2 0 false))
                eq_refl eq_refl eq_refl) as [Hp [Hl _]].
    split; [ exact Hp | ]. apply Hl. vm_compute. reflexivity.
  - destruct (accepted_release_sets_latches 1100 HIGH
                (onInterrupt 100 LOW (new 2 0 false))
                eq_refl eq_refl eq_refl) as [Hp [_ Hs]].
    split; [ exact Hp | ]. apply Hs. vm_compute. discriminate.
Defined.

(** C3: [Reset] clears the is-pressed level and the was-pressed latch
    at once.  However the object is then polled and whatever
    interrupts are ignored in between, the next level change the
    handler accepts, press or release, short or long, ends with
    is-pressed, was-pressed and was-long-pressed all false and with
    no reset pending. *)
Theorem Reset_then_accepted_change_clears_flags
  (b : Button) (cs : list call) (now : Z) (pinLevel : bool) :
  all_calls not_accepted cs (Reset b) = true ->
  accepts now pinLevel (run cs (Reset b)) = true ->
  (m_bIsPressed (Reset b) = false /\ m_bWasPressed (Reset b) = false)
  /\ let b' := onInterrupt now pinLevel (run cs (Reset b)) in
     m_bIsPressed b' = false
     /\ m_bWasPressed b' = false
     /\ m_bWasLongPressed b' = false
     /\ m_bReset b' = false.
Proof.
  intros Hq Ha. split; [ split; reflexivity | ].
  cbv zeta. rewrite (onInterrupt_accepted _ _ _ Ha). cbn.
  rewrite (run_not_accepted_m_bReset cs (Reset b) Hq eq_refl).
  repeat split.
Qed.

Lemma Reset_then_accepted_change_clears_flags_witness :
  let b := onInterrupt 100 LOW (new 2 0 false) in
  let cs := [CallWasPressed; CallInterrupt 120 HIGH; CallIsPressed] in
  let b' := onInterrupt 2100 HIGH (run cs (Reset b)) in
  m_bIsPressed b' = false
  /\ m_bWasPressed b' = false
  /\ m_bWasLongPressed b' = false
  /\ m_bReset b' = false.
Proof.
  cbv zeta.
  apply (Reset_then_accepted_change_clears_flags
           (onInterrupt 100 LOW (new 2 0 false))
           [CallWasPressed; CallInterrupt 120 HIGH; CallIsPressed]
           2100 HIGH); reflexivity.
Defined.

(** With no reset pending, a set was-pressed latch stays set until it
    is read or [Reset] is called: an accepted press leaves it alone
    and an accepted release sets it again. *)
Lemma run_keeps_pressed_latch (cs : list call) (b : Button) :
  all_calls keeps_pressed_latch cs b = true ->
  m_bReset b = false /\ m_bWasPressed b = true ->
  m_bReset (run cs b) = false /\ m_bWasPressed (run cs b) = true.
Proof.
  apply (run_invariant keeps_pressed_latch
           (fun b => m_bReset b = false /\ m_bWasPressed b = true)).
  clear. intros c b Hq [Hr Hw]. unfold keeps_pressed_latch in Hq.
  apply andb_prop in Hq. destruct Hq as [Hn1 Hn2].
  destruct c as [ | | | | now pinLevel ].
  - discriminate Hn1.
  - split; assumption.
  - discriminate Hn2.
  - rewrite exec_snd_WasLongPressed, WasLongPressed_m_bReset.
    split; [ exact Hr | ]. unfold WasLongPressed.
    destruct (m_bWasLongPressed b); exact Hw.
  - cbn [exec snd]. destruct (accepts now pinLevel b) eqn:Ha.
    + rewrite (onInterrupt_accepted _ _ _ Ha). cbn. rewrite Hr, Hw.
      split; [ reflexivity | ]. destruct (is_release pinLevel); reflexivity.
    + rewrite (onInterrupt_not_accepted _ _ _ Ha). split; assumption.
Qed.

(** C6, as stated, fails when [Reset] is called between the press and
    the release: the press at 100 ms and the release at 400 ms are both
    accepted, but the release finds the reset pending, clears the
    latch, and [WasPressed] returns false. *)
Lemma press_Reset_release_WasPressed_returns_false :
  let b1 := onInterrupt 100 bIsPressed (new 2 0 false) in
  let b2 := onInterrupt 400 (negb bIsPressed) (Reset b1) in
  accepts 100 bIsPressed (new 2 0 false) = true
  /\ accepts 400 (negb bIsPressed) (Reset b1) = true
  /\ fst (WasPressed b2) <> true.
Proof.
  cbv zeta. split; [ reflexivity | ]. split; [ reflexivity | ].
  vm_compute. discriminate.
Qed.

(** C6 (amended): a press the handler accepts, followed by a release it
    accepts (so more than the debounce delay later), with no [Reset]
    called between the press and the read, makes [WasPressed] return
    true exactly once.  Between the press and the release there may be
    reads and ignored interrupts; between the release and the first
    call of [WasPressed] there may be any calls but [Reset].  That
    first call returns true and clears the latch, the next returns
    false, and so does any later call for as long as no further
    release is accepted.  [WasLongPressed] reads and clears its latch
    the same way. *)
Theorem press_then_release_without_Reset_WasPressed_once
  (b : Button) (now1 now2 : Z) (cs cs2 : list call) :
  accepts now1 bIsPressed b = true ->
  all_calls poll_or_bounce cs (onInterrupt now1 bIsPressed b) = true ->
  accepts now2 (negb bIsPressed) (run cs (onInterrupt now1 bIsPressed b))
    = true ->
  all_calls keeps_pressed_latch cs2
    (onInterrupt now2 (negb bIsPressed)
       (run cs (onInterrupt now1 bIsPressed b))) = true ->
  let b2 := run cs2
              (onInterrupt now2 (negb bIsPressed)
                 (run cs (onInterrupt now1 bIsPressed b))) in
  (fst (WasPressed b2) = true
   /\ m_bWasPressed (snd (WasPressed b2)) = false
   /\ fst (WasPressed (snd (WasPressed b2))) = false
   /\ (forall cs',
         all_calls not_accepted_release cs' (snd (WasPressed b2)) = true ->
         fst (WasPressed (run cs' (snd (WasPressed b2)))) = false))
  /\ (forall b' : Button,
        fst (WasLongPressed b') = m_bWasLongPressed b'
        /\ m_bWasLongPressed (snd (WasLongPressed b')) = false
        /\ fst (WasLongPressed (snd (WasLongPressed b'))) = false).
Proof.
  intros Hp Hq Hr Hk b2. split.
  - assert (Hreset : m_bReset (run cs (onInterrupt now1 bIsPressed b)) = false).
    { apply run_poll_or_bounce_m_bReset; [ exact Hq | ].
      rewrite (onInterrupt_accepted _ _ _ Hp). reflexivity. }
    assert (Hset : m_bWasPressed b2 = true).
    { subst b2. apply run_keeps_pressed_latch; [ exact Hk | ].
      rewrite (onInterrupt_accepted _ _ _ Hr). cbn.
      rewrite Hreset. split; reflexivity. }
    split; [ rewrite WasPressed_fst; exact Hset | ].
    split; [ apply WasPressed_clears | ].
    split.
    + rewrite WasPressed_fst. apply WasPressed_clears.
    + intros cs' Hcs'. rewrite WasPressed_fst.
      apply run_no_release_m_bWasPressed;
        [ exact Hcs' | apply WasPressed_clears ].
  - intros b'. split; [ apply WasLongPressed_fst | ].
    split; [ apply WasLongPressed_clears | ].
    rewrite WasLongPressed_fst. apply WasLongPressed_clears.
Qed.

Lemma press_then_release_without_Reset_WasPressed_once_witness :
  let b2 := run [CallIsPressed; CallWasLongPressed; CallInterrupt 420 LOW]
              (onInterrupt 400 HIGH
                 (run [CallWasPressed; CallInterrupt 110 HIGH]
                      (onInterrupt 100 LOW (new 2 0 false)))) in
  fst (WasPressed b2) = true
  /\ fst (WasPressed (snd (WasPressed b2))) = false
  /\ fst (WasPressed (run [CallInterrupt 900 LOW; CallReset; CallIsPressed]
                          (snd (WasPressed b2)))) = false.
Proof.
  cbv zeta.
  destruct (press_then_release_without_Reset_WasPressed_once
              (new 2 0 false) 100 400
              [CallWasPressed; CallInterrupt 110 HIGH]
              [CallIsPressed; CallWasLongPressed; CallInterrupt 420 LOW]
              eq_refl eq_refl eq_refl eq_refl) as [[H1 [_ [H2 H3]]] _].
  split; [ exact H1 | ]. split; [ exact H2 | ].
  apply (H3 [CallInterrupt 900 LOW; CallReset; CallIsPressed]). reflexivity.
Defined.

(** C10: [Reset] does not touch the was-long-pressed latch, and
    neither do the reads of the other flags or the interrupts the
    handler ignores; so [WasLongPressed], called after [Reset] and
    before the next accepted level change, returns what the latch
    held before [Reset]: true if it was set. *)
Theorem Reset_keeps_WasLongPressed_latch (b : Button) (cs : list call) :
  all_calls keeps_long_latch cs (Reset b) = true ->
  m_bWasLongPressed (Reset b) = m_bWasLongPressed b
  /\ fst (WasLongPressed (run cs (Reset b))) = m_bWasLongPressed b
  /\ (m_bWasLongPressed b = true ->
      fst (WasLongPressed (run cs (Reset b))) = true).
Proof.
  intros Hq.
  assert (E : fst (WasLongPressed (run cs (Reset b))) = m_bWasLongPressed b).
  { rewrite WasLongPressed_fst.
    apply run_keeps_long_latch; [ exact Hq | reflexivity ]. }
  split; [ reflexivity | ]. split; [ exact E | ].
  intros Hset. rewrite E. exact Hset.
Qed.

Lemma Reset_keeps_WasLongPressed_latch_witness :
  let b := onInterrupt 1200 HIGH (onInterrupt 100 LOW (new 2 0 false)) in
  m_bWasLongPressed b = true
  /\ fst (WasLongPressed
            (run [CallWasPressed; CallInterrupt 1210 LOW] (Reset b))) = true.
Proof.
  cbv zeta. split; [ reflexivity | ].
  apply (Reset_keeps_WasLongPressed_latch
           (onInterrupt 1200 HIGH (onInterrupt 100 LOW (new 2 0 false)))
           [CallWasPressed; CallInterrupt 1210 LOW]); reflexivity.
Defined.

End ButtonSpec.

(** ** StateToggleTimer *)

Module StateToggleTimerSpec.
Import StateToggleTimer.

Lemma run_cons (c : call) (cs : list call) (t : StateToggleTimer) :
  run (c :: cs) t = run cs (exec c t).
Proof. reflexivity. Qed.

Lemma Update_not_started (now : Z) (t : StateToggleTimer) :
  m_bHasStarted t = false -> Update now t = set_m_bIsOn true t.
Proof. intros H. unfold Update. rewrite H. reflexivity. Qed.

Lemma Update_started_elapsed (now : Z) (t : StateToggleTimer) :
  m_bHasStarted t = true -> m_duration t < ULong.sub now (m_timer t) ->
  Update now t = set_m_bIsOn (negb (m_bIsOn t)) (set_m_timer now t).
Proof.
  intros Hs He. unfold Update. rewrite Hs.
  apply ULongFacts.gtb_true_lt in He. rewrite He. reflexivity.
Qed.

Lemma Update_started_waiting (now : Z) (t : StateToggleTimer) :
  m_bHasStarted t = true -> ULong.sub now (m_timer t) <= m_duration t ->
  Update now t = t.
Proof.
  intros Hs He. unfold Update. rewrite Hs.
  apply ULongFacts.gtb_false_le in He. rewrite He. reflexivity.
Qed.

(** [Update] never changes the started flag. *)
Lemma Update_m_bHasStarted (now : Z) (t : StateToggleTimer) :
  m_bHasStarted (Update now t) = m_bHasStarted t.
Proof.
  unfold Update. destruct (m_bHasStarted t) eqn:E.
  - destruct (ULong.sub now (m_timer t) >? m_duration t); cbn; congruence.
  - cbn. exact E.
Qed.

Lemma exec_writes_idle_on (c : call) (t : StateToggleTimer) :
  writes_state c = true -> idle_on (exec c t).
Proof.
  unfold idle_on. destruct c as [ d | ms | | now | ]; cbn; try discriminate.
  - intros _ _. reflexivity.
  - intros _. rewrite Update_m_bHasStarted. intros H.
    rewrite (Update_not_started _ _ H). reflexivity.
Qed.

Lemma exec_keeps_idle_on (c : call) (t : StateToggleTimer) :
  idle_on t -> idle_on (exec c t).
Proof.
  intros Ht. destruct (writes_state c) eqn:W.
  - apply exec_writes_idle_on. exact W.
  - destruct c; try discriminate W; exact Ht.
Qed.

Lemma run_keeps_idle_on (cs : list call) :
  forall t, idle_on t -> idle_on (run cs t).
Proof.
  induction cs as [ | c cs IH ]; intros t Ht.
  - exact Ht.
  - rewrite run_cons. apply IH. apply exec_keeps_idle_on. exact Ht.
Qed.

(** From construction on: as soon as [Start], [Stop] or [Update] has
    been called once, a timer that is not started is on. *)
Lemma reachable_idle_on (cs : list call) :
  forall t, existsb writes_state cs = true -> idle_on (run cs t).
Proof.
  induction cs as [ | c cs IH ]; intros t H; cbn in H.
  - discriminate H.
  - rewrite run_cons. destruct (writes_state c) eqn:W.
    + apply run_keeps_idle_on. apply exec_writes_idle_on. exact W.
    + apply IH. exact H.
Qed.

Lemma updates_not_started (nows : list Z) :
  forall t, m_bHasStarted t = false ->
            m_bHasStarted (updates nows t) = false
            /\ (m_bIsOn t = true \/ nows <> []
                -> m_bIsOn (updates nows t) = true).
Proof.
  unfold updates.
  induction nows as [ | now nows IH ]; intros t Hs; cbn [map].
  - split; [ exact Hs | ]. intros [ H | H ]; [ exact H | congruence ].
  - rewrite run_cons. cbn [exec].
    destruct (IH (Update now t)) as [IH1 IH2].
    { rewrite Update_m_bHasStarted. exact Hs. }
    split; [ exact IH1 | ]. intros _. apply IH2. left.
    rewrite (Update_not_started _ _ Hs). reflexivity.
Qed.

(** C4, as stated, fails right after construction: the constructor
    leaves the timer not started and off. *)
Lemma constructed_timer_is_off :
  HasStarted (new 500 0) = false /\ IsOn (new 500 0) <> true.
Proof. split; [ reflexivity | discriminate ]. Qed.

(** C4 (amended): for a timer that is not started, every [Update],
    for any [now], forces the state on and leaves the timer not
    started, so [IsOn] returns true after the first such [Update] and
    after any number of further ones.  And once [Update], [Start] or
    [Stop] has been called at least once since construction, a timer
    that is not started is on. *)
Theorem not_started_Update_holds_on
  (t : StateToggleTimer) (now : Z) (nows : list Z) :
  HasStarted t = false ->
  (IsOn (Update now t) = true /\ HasStarted (Update now t) = false)
  /\ (IsOn (updates (now :: nows) t) = true
      /\ HasStarted (updates (now :: nows) t) = false)
  /\ (forall (duration millis : Z) (cs : list call),
        existsb writes_state cs = true ->
        HasStarted (run cs (new duration millis)) = false ->
        IsOn (run cs (new duration millis)) = true).
Proof.
  unfold IsOn, HasStarted. intros Hs. split; [ | split ].
  - rewrite Update_m_bHasStarted. split; [ | exact Hs ].
    rewrite (Update_not_started _ _ Hs). reflexivity.
  - destruct (updates_not_started (now :: nows) t Hs) as [H1 H2].
    split; [ | exact H1 ]. apply H2. right. discriminate.
  - intros duration millis cs Hcs. apply reachable_idle_on. exact Hcs.
Qed.

Lemma not_started_Update_holds_on_witness :
  IsOn (new 500 0) = false
  /\ IsOn (Update 7 (new 500 0)) = true
  /\ IsOn (updates [7; 600; 1300] (new 500 0)) = true
  /\ IsOn (run [CallStart 10; CallUpdate 511; CallStop] (new 500 0)) = true.
Proof.
  split; [ reflexivity | ].
  destruct (not_started_Update_holds_on (new 500 0) 7 [600; 1300] eq_refl)
    as [[H1 _] [[H2 _] H3]].
  split; [ exact H1 | ]. split; [ exact H2 | ].
  apply (H3 500 0 [CallStart 10; CallUpdate 511; CallStop]); reflexivity.
Defined.

(** C5, as stated, fails for the largest duration an [unsigned long]
    holds: [t0 + D + 1] then wraps round to [t0], no time has elapsed
    at the call, and the state stays on. *)
Lemma maximal_duration_Update_does_not_flip :
  let D := ULong.max in
  let t0 := 0 in
  let s0 := Start t0 (new D 0) in
  IsOn s0 = true
  /\ ULong.add (ULong.add t0 D) 1 = t0
  /\ IsOn (Update (ULong.add (ULong.add t0 D) 1) s0) <> false.
Proof.
  cbv zeta. split; [ reflexivity | ]. split; [ reflexivity | ].
  vm_compute. discriminate.
Qed.

(** C5 (amended): for a timer whose duration [D] is below the largest
    [unsigned long] value, with all times taken modulo 2^32: after
    [Start] at [t0] the state is on; [Update (t0 + D + 1)] flips it to
    off and sets the reference time stamp to that call's [now], and
    the same call repeated flips nothing more; a following
    [Update (t0 + 2D + 2)] flips it back to on.  In general, for a
    started timer, [Update now] flips the state and sets the reference
    time stamp to [now] when [now] minus the reference time stamp
    strictly exceeds the duration, and changes nothing otherwise. *)
Theorem started_timer_flips_every_duration
  (t : StateToggleTimer) (t0 D : Z) :
  m_duration t = D ->
  0 <= D < ULong.max ->
  let now1 := ULong.wrap (t0 + D + 1) in
  let now2 := ULong.wrap (t0 + 2 * D + 2) in
  let s0 := Start t0 t in
  let s1 := Update now1 s0 in
  let s2 := Update now2 s1 in
  IsOn s0 = true
  /\ (IsOn s1 = false /\ m_timer s1 = now1 /\ Update now1 s1 = s1)
  /\ (IsOn s2 = true /\ m_timer s2 = now2)
  /\ (forall (u : StateToggleTimer) (now : Z),
        HasStarted u = true ->
        (m_duration u < ULong.sub now (m_timer u) ->
         Update now u = set_m_bIsOn (negb (m_bIsOn u)) (set_m_timer now u))
        /\ (ULong.sub now (m_timer u) <= m_duration u ->
            Update now u = u)).
Proof.
  intros HD Hrange now1 now2 s0 s1 s2.
  assert (Hmax : ULong.max = 4294967295) by reflexivity.
  assert (E1 : ULong.sub now1 t0 = D + 1).
  { subst now1. replace (t0 + D + 1) with (t0 + (D + 1)) by lia.
    apply ULongFacts.sub_wrap_add. unfold ULong.in_range.
    rewrite ULongFacts.modulus_eq. lia. }
  assert (E2 : ULong.sub now2 now1 = D + 1).
  { subst now1 now2.
    replace (t0 + D + 1) with (t0 + (D + 1)) by lia.
    replace (t0 + 2 * D + 2) with (t0 + (2 * D + 2)) by lia.
    rewrite ULongFacts.sub_wrap_wrap; [ lia | ].
    unfold ULong.in_range. rewrite ULongFacts.modulus_eq. lia. }
  assert (S1 : s1 = set_m_bIsOn false (set_m_timer now1 s0)).
  { subst s1. rewrite Update_started_elapsed.
    - reflexivity.
    - reflexivity.
    - subst s0. cbn. rewrite E1, HD. lia. }
  assert (S2 : s2 = set_m_bIsOn true (set_m_timer now2 s1)).
  { subst s2. rewrite Update_started_elapsed.
    - rewrite S1. reflexivity.
    - rewrite S1. reflexivity.
    - rewrite S1. subst s0. cbn. rewrite E2, HD. lia. }
  split; [ reflexivity | ]. split; [ | split ].
  - split; [ rewrite S1; reflexivity | ].
    split; [ rewrite S1; reflexivity | ].
    apply Update_started_waiting.
    + rewrite S1. reflexivity.
    + rewrite S1. subst s0. cbn. rewrite ULongFacts.sub_diag, HD. lia.
  - split; rewrite S2; reflexivity.
  - intros u now Hu. split.
    + apply Update_started_elapsed. exact Hu.
    + apply Update_started_waiting. exact Hu.
Qed.

Lemma started_timer_flips_every_duration_witness :
  let s0 := Start 4294967000 (new 500 0) in
  let s1 := Update 205 s0 in
  let s2 := Update 706 s1 in
  ULong.wrap (4294967000 + 500 + 1) = 205
  /\ ULong.wrap (4294967000 + 2 * 500 + 2) = 706
  /\ IsOn s0 = true /\ IsOn s1 = false /\ IsOn s2 = true.
Proof.
  cbv zeta. split; [ reflexivity | ]. split; [ reflexivity | ].
  assert (R : 0 <= 500 < ULong.max) by (split; [ discriminate | reflexivity ]).
  destruct (started_timer_flips_every_duration (new 500 0) 4294967000 500
              eq_refl R) as [H0 [[H1 _] [[H2 _] _]]].
  split; [ exact H0 | ]. split; [ exact H1 | exact H2 ].
Defined.

(** C7: [Stop] clears the started flag and forces the state on, so
    right after it [HasStarted] returns false and [IsOn] returns
    true; the other members keep their values. *)
Theorem Stop_clears_started_and_turns_on (t : StateToggleTimer) :
  HasStarted (Stop t) = false
  /\ IsOn (Stop t) = true
  /\ Stop t = {| m_bIsOn := true;
                 m_bPreviousState := m_bPreviousState t;
                 m_bHasStarted := false;
                 m_duration := m_duration t;
                 m_timer := m_timer t |}.
Proof. repeat split. Qed.

(** Only [HasStateChanged] writes the recorded previous state. *)
Lemma run_keeps_m_bPreviousState (cs : list call) :
  forall t, forallb not_HasStateChanged cs = true ->
            m_bPreviousState (run cs t) = m_bPreviousState t.
Proof.
  induction cs as [ | c cs IH ]; intros t H; cbn in H.
  - reflexivity.
  - apply andb_prop in H. destruct H as [Hc Hcs].
    rewrite run_cons, (IH _ Hcs).
    destruct c as [ d | ms | | now | ]; try reflexivity.
    + cbn. unfold Update. destruct (m_bHasStarted t); [ | reflexivity ].
      destruct (ULong.sub now (m_timer t) >? m_duration t); reflexivity.
    + discriminate Hc.
Qed.

(** C8: [HasStateChanged] returns true exactly when the state differs
    from the recorded previous state, records the current state as
    the previous one and changes nothing else.  Hence a second call
    right after the first returns false, and so does a second call
    after any calls (other than [HasStateChanged]) that leave the
    state as it was, such as [Update]s that do not flip it. *)
Theorem HasStateChanged_consumes_the_change (t : StateToggleTimer) :
  (fst (HasStateChanged t) = true <-> m_bIsOn t <> m_bPreviousState t)
  /\ snd (HasStateChanged t) = set_m_bPreviousState (m_bIsOn t) t
  /\ fst (HasStateChanged (snd (HasStateChanged t))) = false
  /\ (forall cs : list call,
        forallb not_HasStateChanged cs = true ->
        IsOn (run cs (snd (HasStateChanged t))) = IsOn t ->
        fst (HasStateChanged (run cs (snd (HasStateChanged t)))) = false).
Proof.
  split; [ | split; [ reflexivity | split ] ].
  - unfold HasStateChanged. cbn.
    destruct (m_bIsOn t), (m_bPreviousState t); cbn;
      split; intros H; congruence.
  - unfold HasStateChanged. cbn. rewrite eqb_reflx. reflexivity.
  - intros cs Hcs Hon. unfold IsOn in Hon.
    unfold HasStateChanged at 1. cbn [fst].
    rewrite (run_keeps_m_bPreviousState cs _ Hcs), Hon.
    cbn. rewrite eqb_reflx. reflexivity.
Qed.

Lemma HasStateChanged_consumes_the_change_witness :
  let t := Update 700 (Start 100 (new 500 0)) in
  fst (HasStateChanged t) = false
  /\ fst (HasStateChanged
            (run [CallUpdate 900; CallSetDuration 300]
                 (snd (HasStateChanged t)))) = false.
Proof.
  cbv zeta. split; [ reflexivity | ].
  destruct (HasStateChanged_consumes_the_change
              (Update 700 (Start 100 (new 500 0)))) as [_ [_ [_ H]]].
  apply (H [CallUpdate 900; CallSetDuration 300]); reflexivity.
Defined.

(** C9: [SetDuration] assigns the duration and nothing else: the
    state, the recorded previous state, the started flag and the
    reference time stamp keep their values.  The next [Update]
    therefore measures the time from the unchanged reference time
    stamp and compares it with the new duration. *)
Theorem SetDuration_changes_only_the_duration
  (d : Z) (t : StateToggleTimer) :
  (m_duration (SetDuration d t) = d
   /\ m_bIsOn (SetDuration d t) = m_bIsOn t
   /\ m_bPreviousState (SetDuration d t) = m_bPreviousState t
   /\ m_bHasStarted (SetDuration d t) = m_bHasStarted t
   /\ m_timer (SetDuration d t) = m_timer t)
  /\ (forall now : Z,
        Update now (SetDuration d t) =
          if m_bHasStarted t then
            if ULong.sub now (m_timer t) >? d
            then set_m_bIsOn (negb (m_bIsOn t))
                   (set_m_timer now (SetDuration d t))
            else SetDuration d t
          else set_m_bIsOn true (SetDuration d t)).
Proof.
  split; [ repeat split | ].
  intros now. unfold Update. cbn.
  destruct (m_bHasStarted t); reflexivity.
Qed.

End StateToggleTimerSpec.

(** ** Button: further properties *)

Module ButtonFacts.
Import Button ButtonHistory ButtonSpec.

Lemma last_cons_default {A : Type} (ls : list A) :
  forall x d : A, last (x :: ls) d = last ls x.
Proof.
  induction ls as [ | y ls IH ]; intros x d.
  - reflexivity.
  - change (last (x :: y :: ls) d) with (last (y :: ls) d).
    rewrite (IH y d), (IH y x). reflexivity.
Qed.

Lemma exec_not_accepted_level (c : call) (b : Button) :
  accepted_level c b = None ->
  lastState (snd (exec c b)) = lastState b
  /\ lastStateChangeTime (snd (exec c b)) = lastStateChangeTime b
  /\ m_pin (snd (exec c b)) = m_pin b.
Proof.
  intros H. destruct c as [ | | | | now pinLevel ].
  - repeat split.
  - repeat split.
  - rewrite exec_snd_WasPressed. unfold WasPressed.
    destruct (m_bWasPressed b); repeat split.
  - rewrite exec_snd_WasLongPressed. unfold WasLongPressed.
    destruct (m_bWasLongPressed b); repeat split.
  - cbn in *. destruct (accepts now pinLevel b) eqn:Ha; [ discriminate H | ].
    rewrite (onInterrupt_not_accepted _ _ _ Ha). repeat split.
Qed.

Lemma exec_accepted_level (c : call) (b : Button) (l : bool) :
  accepted_level c b = Some l ->
  l = negb (lastState b) /\ lastState (snd (exec c b)) = l.
Proof.
  intros H. destruct c as [ | | | | now pinLevel ]; try discriminate H.
  cbn in *. destruct (accepts now pinLevel b) eqn:Ha; [ | discriminate H ].
  injection H as <-. rewrite (onInterrupt_accepted _ _ _ Ha). cbn.
  split; [ | reflexivity ].
  unfold accepts in Ha. apply andb_prop in Ha. destruct Ha as [_ Ha].
  destruct pinLevel, (lastState b); cbn in *; congruence.
Qed.

(** X1: the level changes the handler accepts alternate: each accepted
    level is the opposite of the one accepted before it, whatever
    else is called in between; and the accepted level the object holds
    is the last of them.  For a new button the first accepted change
    is therefore a press. *)
Theorem accepted_levels_alternate (cs : list call) (b : Button) :
  alternating (negb (lastState b)) (accepted_levels cs b) = true
  /\ lastState (run cs b) = last (accepted_levels cs b) (lastState b)
  /\ (forall (pin millis : Z) (reset0 : bool) (l : bool) (ls : list bool),
        accepted_levels cs (new pin millis reset0) = l :: ls ->
        l = bIsPressed).
Proof.
  assert (A : forall cs b,
             alternating (negb (lastState b)) (accepted_levels cs b) = true
             /\ lastState (run cs b)
                = last (accepted_levels cs b) (lastState b)).
  { clear. induction cs as [ | c cs IH ]; intros b.
    - split; reflexivity.
    - cbn [accepted_levels run].
      destruct (IH (snd (exec c b))) as [IH1 IH2].
      destruct (accepted_level c b) as [ l | ] eqn:E.
      + destruct (exec_accepted_level c b l E) as [E1 E2].
        rewrite E2 in IH1, IH2. split.
        * cbn [alternating]. rewrite <- E1, eqb_reflx. exact IH1.
        * rewrite IH2, last_cons_default. reflexivity.
      + destruct (exec_not_accepted_level c b E) as [E1 _].
        rewrite E1 in IH1, IH2. split; assumption. }
  destruct (A cs b) as [A1 A2]. split; [ exact A1 | ]. split; [ exact A2 | ].
  intros pin millis reset0 l ls E.
  destruct (A cs (new pin millis reset0)) as [B _].
  rewrite E in B. cbn in B. apply andb_prop in B. destruct B as [B _].
  apply eqb_prop in B. exact B.
Qed.

Lemma accepted_levels_alternate_witness :
  let cs := [CallInterrupt 10 LOW; CallInterrupt 100 HIGH;
             CallInterrupt 100 LOW; CallWasPressed;
             CallInterrupt 120 HIGH; CallInterrupt 400 HIGH] in
  accepted_levels cs (new 2 0 false) = [LOW; HIGH]
  /\ LOW = bIsPressed
  /\ lastState (run cs (new 2 0 false)) = HIGH.
Proof.
  cbv zeta. split; [ reflexivity | ].
  destruct (accepted_levels_alternate
              [CallInterrupt 10 LOW; CallInterrupt 100 HIGH;
               CallInterrupt 100 LOW; CallWasPressed;
               CallInterrupt 120 HIGH; CallInterrupt 400 HIGH]
              (new 2 0 false)) as [_ [H2 H3]].
  split; [ | exact H2 ].
  apply (H3 2 0 false LOW [HIGH]). reflexivity.
Defined.

Lemma new_flags_agree (pin millis : Z) (reset0 : bool) :
  flags_agree (new pin millis reset0).
Proof. split; cbn; discriminate. Qed.

Lemma exec_flags_agree (c : call) (b : Button) :
  flags_agree b -> flags_agree (snd (exec c b)).
Proof.
  intros [Hp Hl]. destruct c as [ | | | | now pinLevel ].
  - split; cbn; [ discriminate | exact Hl ].
  - split; assumption.
  - rewrite exec_snd_WasPressed. unfold WasPressed.
    destruct (m_bWasPressed b); split; assumption.
  - rewrite exec_snd_WasLongPressed. unfold WasLongPressed.
    destruct (m_bWasLongPressed b) eqn:E; split; cbn; intros H;
      first [ discriminate H | exact (Hp H) | congruence ].
  - cbn [exec snd]. destruct (accepts now pinLevel b) eqn:Ha.
    + rewrite (onInterrupt_accepted _ _ _ Ha). split; cbn.
      * intros H. apply andb_prop in H. destruct H as [_ H].
        apply eqb_prop in H. exact H.
      * intros H. apply andb_prop in H. destruct H as [H _].
        apply andb_prop in H. destruct H as [_ H].
        unfold is_release in H. destruct pinLevel; [ reflexivity | ].
        discriminate H.
    + rewrite (onInterrupt_not_accepted _ _ _ Ha). split; assumption.
Qed.

Lemma run_flags_agree (cs : list call) :
  forall b, flags_agree b -> flags_agree (run cs b).
Proof.
  induction cs as [ | c cs IH ]; intros b H; cbn [run].
  - exact H.
  - apply IH. apply exec_flags_agree. exact H.
Qed.

(** X2: in every history of a button since its construction the flags
    agree with the accepted level: [IsPressed] is true only while the
    accepted level is the pressed one, the long-press latch is held
    only while the accepted level is the released one, and so the two
    are never true together. *)
Theorem flags_agree_with_accepted_level
  (pin millis : Z) (reset0 : bool) (cs : list call) :
  flags_agree (run cs (new pin millis reset0))
  /\ IsPressed (run cs (new pin millis reset0))
     && m_bWasLongPressed (run cs (new pin millis reset0)) = false.
Proof.
  assert (H : flags_agree (run cs (new pin millis reset0))).
  { apply run_flags_agree. apply new_flags_agree. }
  split; [ exact H | ]. destruct H as [Hp Hl]. unfold IsPressed.
  destruct (m_bIsPressed (run cs (new pin millis reset0))); [ | reflexivity ].
  destruct (m_bWasLongPressed (run cs (new pin millis reset0)));
    [ | reflexivity ].
  specialize (Hp eq_refl). specialize (Hl eq_refl).
  rewrite Hp in Hl. discriminate Hl.
Qed.



(** X4: [Reset] hides the next press but not its release.  When the
    first level change accepted after [Reset] is a press, [IsPressed]
    stays false although the press is recorded; the release accepted
    after it sets the was-pressed latch, and sets the long-press latch
    exactly when it comes more than 1000 ms after that press. *)
Theorem Reset_hides_press_but_not_release (b : Button) (now1 now2 : Z) :
  accepts now1 bIsPressed (Reset b) = true ->
  accepts now2 (negb bIsPressed) (onInterrupt now1 bIsPressed (Reset b))
    = true ->
  let b1 := onInterrupt now1 bIsPressed (Reset b) in
  let b2 := onInterrupt now2 (negb bIsPressed) b1 in
  (IsPressed b1 = false /\ lastState b1 = bIsPressed)
  /\ m_bWasPressed b2 = true
  /\ (m_bWasLongPressed b2 = true <-> longPressDelay < ULong.sub now2 now1).
Proof.
  intros H1 H2 b1 b2. subst b2 b1.
  rewrite (onInterrupt_accepted _ _ _ H2).
  rewrite (onInterrupt_accepted _ _ _ H1). cbn.
  split; [ split; reflexivity | ]. split; [ reflexivity | ].
  unfold elapsed. cbn. apply ULongFacts.gtb_true_lt.
Qed.

Lemma Reset_hides_press_but_not_release_witness :
  let b1 := onInterrupt 100 LOW (Reset (new 2 0 false)) in
  let b2 := onInterrupt 1500 HIGH b1 in
  IsPressed b1 = false
  /\ m_bWasPressed b2 = true
  /\ m_bWasLongPressed b2 = true.
Proof.
  cbv zeta.
  destruct (Reset_hides_press_but_not_release (new 2 0 false) 100 1500
              eq_refl eq_refl) as [[H1 _] [H2 H3]].
  split; [ exact H1 | ]. split; [ exact H2 | ]. apply H3. reflexivity.
Defined.

(** X5: the constructor assigns every member but [m_bReset], and the
    value that member happens to hold decides whether the first press
    is reported: after the first accepted press [IsPressed] returns the
    negation of that value.  Either way both latches are clear and no
    reset is pending afterwards, so after the release the next accepted
    press is reported. *)
Theorem first_press_on_new_button
  (pin millis : Z) (reset0 : bool) (now1 now2 now3 : Z) :
  accepts now1 bIsPressed (new pin millis reset0) = true ->
  let b1 := onInterrupt now1 bIsPressed (new pin millis reset0) in
  let b2 := onInterrupt now2 (negb bIsPressed) b1 in
  let b3 := onInterrupt now3 bIsPressed b2 in
  accepts now2 (negb bIsPressed) b1 = true ->
  accepts now3 bIsPressed b2 = true ->
  (IsPressed b1 = negb reset0
   /\ m_bWasPressed b1 = false
   /\ m_bWasLongPressed b1 = false
   /\ m_bReset b1 = false)
  /\ IsPressed b3 = true.
Proof.
  intros H1 b1 b2 b3 H2 H3. subst b3 b2 b1.
  rewrite (onInterrupt_accepted _ _ _ H3).
  rewrite (onInterrupt_accepted _ _ _ H2).
  rewrite (onInterrupt_accepted _ _ _ H1). cbn.
  destruct reset0; repeat split.
Qed.

Lemma first_press_on_new_button_witness :
  IsPressed (onInterrupt 100 LOW (new 2 0 true)) = false
  /\ IsPressed (onInterrupt 100 LOW (new 2 0 false)) = true
  /\ IsPressed (onInterrupt 500 LOW
                  (onInterrupt 300 HIGH
                     (onInterrupt 100 LOW (new 2 0 true)))) = true.
Proof.
  destruct (first_press_on_new_button 2 0 true 100 300 500
              eq_refl eq_refl eq_refl) as [[H1 _] H3].
  destruct (first_press_on_new_button 2 0 false 100 300 500
              eq_refl eq_refl eq_refl) as [[H2 _] _].
  split; [ exact H1 | ]. split; [ exact H2 | exact H3 ].
Defined.

Lemma not_accepted_level (c : call) (b : Button) :
  not_accepted c b = true -> accepted_level c b = None.
Proof.
  destruct c as [ | | | | now pinLevel ]; try reflexivity.
  cbn. intros H. apply negb_true_iff in H. rewrite H. reflexivity.
Qed.

(** X6: calls that are not an accepted level change (reads, [Reset],
    interrupts the handler ignores) leave the accepted level, the time
    stamp of the last accepted change and the pin as they are.  A burst
    of bounces therefore does not move the debounce window: whether a
    later interrupt is accepted is decided as it would have been before
    the burst. *)
Theorem ignored_calls_keep_debounce_reference (cs : list call) (b : Button) :
  all_calls not_accepted cs b = true ->
  lastState (run cs b) = lastState b
  /\ lastStateChangeTime (run cs b) = lastStateChangeTime b
  /\ m_pin (run cs b) = m_pin b
  /\ (forall (now : Z) (pinLevel : bool),
        accepts now pinLevel (run cs b) = accepts now pinLevel b).
Proof.
  intros H.
  assert (A : lastState (run cs b) = lastState b
              /\ lastStateChangeTime (run cs b) = lastStateChangeTime b
              /\ m_pin (run cs b) = m_pin b).
  { apply (run_invariant not_accepted
             (fun b' => lastState b' = lastState b
                        /\ lastStateChangeTime b' = lastStateChangeTime b
                        /\ m_pin b' = m_pin b));
      [ | exact H | repeat split ].
    intros c b' Hc [E1 [E2 E3]].
    destruct (exec_not_accepted_level c b' (not_accepted_level c b' Hc))
      as [F1 [F2 F3]].
    rewrite F1, F2, F3. repeat split; assumption. }
  destruct A as [A1 [A2 A3]]. repeat split; try assumption.
  intros now pinLevel. unfold accepts, elapsed. rewrite A1, A2. reflexivity.
Qed.

Lemma ignored_calls_keep_debounce_reference_witness :
  let b := onInterrupt 100 LOW (new 2 0 false) in
  let cs := [CallInterrupt 110 HIGH; CallInterrupt 125 LOW;
             CallIsPressed; CallInterrupt 149 HIGH] in
  lastStateChangeTime (run cs b) = 100
  /\ accepts 151 HIGH (run cs b) = true.
Proof.
  cbv zeta.
  destruct (ignored_calls_keep_debounce_reference
              [CallInterrupt 110 HIGH; CallInterrupt 125 LOW;
               CallIsPressed; CallInterrupt 149 HIGH]
              (onInterrupt 100 LOW (new 2 0 false)) eq_refl)
    as [_ [H2 [_ H4]]].
  split; [ exact H2 | ]. rewrite H4. reflexivity.
Defined.

(** Only an accepted level change sets the long-press latch. *)
Lemma run_not_accepted_long_latch_clear (cs : list call) (b : Button) :
  all_calls not_accepted cs b = true -> m_bWasLongPressed b = false ->
  m_bWasLongPressed (run cs b) = false.
Proof.
  apply (run_invariant not_accepted (fun b => m_bWasLongPressed b = false)).
  clear. intros c b Hq Hr. destruct c as [ | | | | now pinLevel ].
  - exact Hr.
  - exact Hr.
  - rewrite exec_snd_WasPressed, WasPressed_m_bWasLongPressed. exact Hr.
  - rewrite exec_snd_WasLongPressed. apply WasLongPressed_clears.
  - cbn in *. apply negb_true_iff in Hq.
    rewrite (onInterrupt_not_accepted _ _ _ Hq). exact Hr.
Qed.

(** X7: a long press is reported at the release only.  From an accepted
    press until the next accepted level change, however long the
    button is held and whatever else is called, [WasLongPressed]
    returns false. *)
Theorem held_button_reports_no_long_press
  (b : Button) (now : Z) (cs : list call) :
  accepts now bIsPressed b = true ->
  all_calls not_accepted cs (onInterrupt now bIsPressed b) = true ->
  fst (WasLongPressed (run cs (onInterrupt now bIsPressed b))) = false.
Proof.
  intros Ha Hq. rewrite WasLongPressed_fst.
  apply run_not_accepted_long_latch_clear; [ exact Hq | ].
  rewrite (onInterrupt_accepted _ _ _ Ha). cbn.
  rewrite andb_false_r. reflexivity.
Qed.

Lemma held_button_reports_no_long_press_witness :
  fst (WasLongPressed
         (run [CallInterrupt 5000 LOW; CallWasPressed; CallReset]
              (onInterrupt 100 LOW (new 2 0 false)))) = false.
Proof.
  apply (held_button_reports_no_long_press (new 2 0 false) 100
           [CallInterrupt 5000 LOW; CallWasPressed; CallReset]);
    reflexivity.
Defined.

(** Reads and ignored interrupts leave the is-pressed level alone. *)
Lemma run_poll_or_bounce_m_bIsPressed (cs : list call) (b : Button) (v : bool) :
  all_calls poll_or_bounce cs b = true -> m_bIsPressed b = v ->
  m_bIsPressed (run cs b) = v.
Proof.
  apply (run_invariant poll_or_bounce (fun b => m_bIsPressed b = v)).
  clear. intros c b Hq Hr. unfold poll_or_bounce in Hq.
  apply andb_prop in Hq. destruct Hq as [Hq Hn].
  destruct c as [ | | | | now pinLevel ].
  - discriminate Hn.
  - exact Hr.
  - rewrite exec_snd_WasPressed. unfold WasPressed.
    destruct (m_bWasPressed b); exact Hr.
  - rewrite exec_snd_WasLongPressed. unfold WasLongPressed.
    destruct (m_bWasLongPressed b); exact Hr.
  - cbn in *. apply negb_true_iff in Hq.
    rewrite (onInterrupt_not_accepted _ _ _ Hq). exact Hr.
Qed.

(** X8: with no reset pending, an accepted press makes [IsPressed]
    return true, and it keeps returning true through reads and ignored
    interrupts, that is until a release is accepted or [Reset] is
    called; an accepted release makes it return false the same way. *)
Theorem IsPressed_follows_accepted_level
  (b : Button) (now : Z) (pinLevel : bool) (cs : list call) :
  m_bReset b = false ->
  accepts now pinLevel b = true ->
  all_calls poll_or_bounce cs (onInterrupt now pinLevel b) = true ->
  IsPressed (run cs (onInterrupt now pinLevel b))
  = Bool.eqb pinLevel bIsPressed.
Proof.
  intros Hr Ha Hq. unfold IsPressed.
  apply run_poll_or_bounce_m_bIsPressed; [ exact Hq | ].
  rewrite (onInterrupt_accepted _ _ _ Ha). cbn. rewrite Hr. reflexivity.
Qed.

Lemma IsPressed_follows_accepted_level_witness :
  IsPressed (run [CallInterrupt 120 HIGH; CallWasLongPressed; CallIsPressed]
                 (onInterrupt 100 LOW (new 2 0 false))) = true
  /\ IsPressed (run [CallWasPressed]
                    (onInterrupt 900 HIGH
                       (onInterrupt 100 LOW (new 2 0 false)))) = false.
Proof.
  split.
  - apply (IsPressed_follows_accepted_level (new 2 0 false) 100 LOW
             [CallInterrupt 120 HIGH; CallWasLongPressed; CallIsPressed]);
      reflexivity.
  - apply (IsPressed_follows_accepted_level
             (onInterrupt 100 LOW (new 2 0 false)) 900 HIGH
             [CallWasPressed]); reflexivity.
Defined.

(** X17: a new press cancels an unread long-press latch but keeps an
    unread was-pressed latch.  If the flags of a release have not been
    read when the next press is accepted (no reset pending), a later
    [WasPressed] still returns true while [WasLongPressed] returns
    false: a long press read that late is reported as a plain press. *)
Theorem new_press_keeps_pressed_latch_only (b : Button) (now : Z) :
  m_bReset b = false ->
  m_bWasPressed b = true ->
  accepts now bIsPressed b = true ->
  fst (WasPressed (onInterrupt now bIsPressed b)) = true
  /\ fst (WasLongPressed (onInterrupt now bIsPressed b)) = false.
Proof.
  intros Hr Hw Ha. rewrite WasPressed_fst, WasLongPressed_fst.
  rewrite (onInterrupt_accepted _ _ _ Ha). cbn. rewrite Hr, Hw.
  split; reflexivity.
Qed.

Lemma new_press_keeps_pressed_latch_only_witness :
  let b := onInterrupt 1500 HIGH (onInterrupt 100 LOW (new 2 0 false)) in
  m_bWasLongPressed b = true
  /\ fst (WasPressed (onInterrupt 1700 LOW b)) = true
  /\ fst (WasLongPressed (onInterrupt 1700 LOW b)) = false.
Proof.
  cbv zeta. split; [ reflexivity | ].
  exact (new_press_keeps_pressed_latch_only
           (onInterrupt 1500 HIGH (onInterrupt 100 LOW (new 2 0 false)))
           1700 eq_refl eq_refl eq_refl).
Defined.

(** X18: the was-pressed latch is a flag, not a counter.  Two presses,
    each released, with no read in between are reported as one:
    [WasPressed] returns true once and then false. *)
Theorem two_presses_are_reported_once
  (b : Button) (now1 now2 now3 now4 : Z) :
  let b1 := onInterrupt now1 bIsPressed b in
  let b2 := onInterrupt now2 (negb bIsPressed) b1 in
  let b3 := onInterrupt now3 bIsPressed b2 in
  let b4 := onInterrupt now4 (negb bIsPressed) b3 in
  accepts now1 bIsPressed b = true ->
  accepts now2 (negb bIsPressed) b1 = true ->
  accepts now3 bIsPressed b2 = true ->
  accepts now4 (negb bIsPressed) b3 = true ->
  fst (WasPressed b4) = true
  /\ fst (WasPressed (snd (WasPressed b4))) = false.
Proof.
  intros b1 b2 b3 b4 H1 H2 H3 H4. split.
  - rewrite WasPressed_fst. subst b4.
    rewrite (onInterrupt_accepted _ _ _ H4). cbn.
    subst b3. rewrite (onInterrupt_accepted _ _ _ H3). reflexivity.
  - rewrite WasPressed_fst. apply WasPressed_clears.
Qed.

Lemma two_presses_are_reported_once_witness :
  let b4 := run [CallInterrupt 100 LOW; CallInterrupt 300 HIGH;
                 CallInterrupt 500 LOW; CallInterrupt 700 HIGH]
                (new 2 0 false) in
  fst (WasPressed b4) = true
  /\ fst (WasPressed (snd (WasPressed b4))) = false.
Proof.
  exact (two_presses_are_reported_once (new 2 0 false) 100 300 500 700
           eq_refl eq_refl eq_refl eq_refl).
Defined.

End ButtonFacts.


(** ** StateToggleTimer: further properties *)

Module StateToggleTimerFacts.
Import StateToggleTimer TimerHistory StateToggleTimerSpec.

Lemma sub_bounds (a b : Z) : 0 <= ULong.sub a b <= ULong.max.
Proof.
  unfold ULong.sub, ULong.wrap, ULong.max.
  pose proof (Z.mod_pos_bound (a - b) ULong.modulus) as H.
  rewrite ULongFacts.modulus_eq in *. lia.
Qed.

(** The subtraction only sees its operands modulo 2^32. *)
Lemma sub_wrap_r (a b : Z) : ULong.sub a (ULong.wrap b) = ULong.sub a b.
Proof. unfold ULong.sub, ULong.wrap. apply Zminus_mod_idemp_r. Qed.

Lemma sub_zero_iff (a b : Z) :
  ULong.in_range a -> ULong.in_range b -> (ULong.sub a b = 0 <-> a = b).
Proof.
  unfold ULong.in_range. intros Ha Hb. split.
  - unfold ULong.sub, ULong.wrap. intros H.
    destruct (Z_lt_le_dec a b) as [ Hlt | Hge ].
    + rewrite <- (Z_mod_plus_full (a - b) 1 ULong.modulus) in H.
      rewrite Z.mod_small in H; lia.
    + rewrite Z.mod_small in H; lia.
  - intros ->. apply ULongFacts.sub_diag.
Qed.

Lemma updates_cons (now : Z) (nows : list Z) (t : StateToggleTimer) :
  updates (now :: nows) t = updates nows (Update now t).
Proof. reflexivity. Qed.

Lemma updates_snoc (nows : list Z) (now : Z) (t : StateToggleTimer) :
  updates (nows ++ [now]) t = Update now (updates nows t).
Proof. unfold updates, run. rewrite map_app, fold_left_app. reflexivity. Qed.

Lemma poll_times_S (t0 step : Z) (n : nat) :
  poll_times t0 step (S n)
  = poll_times t0 step n ++ [ULong.wrap (t0 + Z.of_nat (S n) * step)].
Proof. unfold poll_times. rewrite seq_S, map_app. reflexivity. Qed.

(** X9: a started timer polled once per period keeps flipping.  After
    [Start] at [t0], for a duration [D] below the largest [unsigned
    long], the calls [Update (t0 + k (D + 1))] for [k] = 1 .. [n], with
    the times taken modulo 2^32, flip the state [n] times: it is on
    exactly when [n] is even, and the reference time stamp is the last
    polling time. *)
Theorem polled_timer_flips_n_times
  (t : StateToggleTimer) (t0 D : Z) (n : nat) :
  m_duration t = D ->
  0 <= D < ULong.max ->
  let s := updates (poll_times t0 (D + 1) n) (Start t0 t) in
  IsOn s = Nat.even n
  /\ HasStarted s = true
  /\ ULong.wrap (m_timer s) = ULong.wrap (t0 + Z.of_nat n * (D + 1)).
Proof.
  intros HD Hrange.
  assert (Hmax : ULong.max = 4294967295) by reflexivity.
  assert (A : let s := updates (poll_times t0 (D + 1) n) (Start t0 t) in
              (IsOn s = Nat.even n /\ HasStarted s = true
               /\ ULong.wrap (m_timer s)
                  = ULong.wrap (t0 + Z.of_nat n * (D + 1)))
              /\ m_duration s = D).
  { induction n as [ | n IH ].
    - cbn. repeat split; try assumption. f_equal. lia.
    - cbv zeta in *. rewrite poll_times_S, updates_snoc.
      destruct IH as [[I1 [I2 I3]] I4].
      set (s := updates (poll_times t0 (D + 1) n) (Start t0 t)) in *.
      unfold IsOn, HasStarted in *.
      assert (E : ULong.sub (ULong.wrap (t0 + Z.of_nat (S n) * (D + 1)))
                            (m_timer s) = D + 1).
      { rewrite <- sub_wrap_r, I3, ULongFacts.sub_wrap_wrap.
        - lia.
        - unfold ULong.in_range. rewrite ULongFacts.modulus_eq. lia. }
      rewrite Update_started_elapsed; [ | exact I2 | rewrite E, I4; lia ].
      cbn [m_bIsOn m_bHasStarted m_timer m_duration set_m_bIsOn set_m_timer].
      rewrite I1, Nat.even_succ, <- Nat.negb_even.
      repeat split; try assumption.
      unfold ULong.wrap. apply Zmod_mod. }
  intros s. destruct A as [A _]. exact A.
Qed.

Lemma polled_timer_flips_n_times_witness :
  poll_times 4294966000 501 3 = [4294966501; 4294967002; 207]
  /\ IsOn (updates [4294966501; 4294967002; 207]
                   (Start 4294966000 (new 500 0))) = false.
Proof.
  split; [ reflexivity | ].
  assert (R : 0 <= 500 < ULong.max) by (split; [ discriminate | reflexivity ]).
  destruct (polled_timer_flips_n_times (new 500 0) 4294966000 500 3
              eq_refl R) as [H _].
  exact H.
Defined.

(** X10: with the largest duration an [unsigned long] holds, 2^32 - 1,
    no elapsed time can exceed the duration: a started timer never
    flips, whatever times [Update] is called with and however often. *)
Theorem maximal_duration_never_flips (t : StateToggleTimer) (nows : list Z) :
  HasStarted t = true ->
  m_duration t = ULong.max ->
  updates nows t = t.
Proof.
  unfold HasStarted. intros Hs Hd. induction nows as [ | now nows IH ].
  - reflexivity.
  - rewrite updates_cons, Update_started_waiting; [ exact IH | exact Hs | ].
    pose proof (sub_bounds now (m_timer t)). lia.
Qed.

Lemma maximal_duration_never_flips_witness :
  updates [1; 4294967295; 77; 4000000000] (Start 0 (new 4294967295 0))
  = Start 0 (new 4294967295 0).
Proof.
  apply (maximal_duration_never_flips (Start 0 (new 4294967295 0))
           [1; 4294967295; 77; 4000000000]); reflexivity.
Defined.

(** X11: with duration 0 a started timer flips at every [Update] whose
    time differs from the reference time stamp, and only then: a second
    [Update] within the same millisecond changes nothing. *)
Theorem zero_duration_flips_on_every_new_time
  (t : StateToggleTimer) (now : Z) :
  HasStarted t = true ->
  m_duration t = 0 ->
  ULong.in_range now ->
  ULong.in_range (m_timer t) ->
  (now = m_timer t -> Update now t = t)
  /\ (now <> m_timer t ->
      Update now t = set_m_bIsOn (negb (m_bIsOn t)) (set_m_timer now t))
  /\ Update now (Update now t) = Update now t.
Proof.
  unfold HasStarted. intros Hs Hd Hn Ht.
  assert (Same : now = m_timer t -> Update now t = t).
  { intros E. apply Update_started_waiting; [ exact Hs | ].
    rewrite E, ULongFacts.sub_diag, Hd. lia. }
  assert (Other : now <> m_timer t ->
                  Update now t
                  = set_m_bIsOn (negb (m_bIsOn t)) (set_m_timer now t)).
  { intros E. apply Update_started_elapsed; [ exact Hs | ].
    rewrite Hd. pose proof (sub_bounds now (m_timer t)) as B.
    assert (ULong.sub now (m_timer t) <> 0).
    { intros Z0. apply E. apply (sub_zero_iff now (m_timer t) Hn Ht). exact Z0. }
    lia. }
  split; [ exact Same | ]. split; [ exact Other | ].
  destruct (Z.eq_dec now (m_timer t)) as [ E | E ].
  - rewrite (Same E). exact (Same E).
  - rewrite (Other E). apply Update_started_waiting; [ exact Hs | ].
    cbn. rewrite ULongFacts.sub_diag, Hd. lia.
Qed.

Lemma zero_duration_flips_on_every_new_time_witness :
  IsOn (Update 11 (Start 10 (new 0 0))) = false
  /\ Update 10 (Start 10 (new 0 0)) = Start 10 (new 0 0).
Proof.
  assert (R10 : ULong.in_range 10) by (split; [ discriminate | reflexivity ]).
  assert (R11 : ULong.in_range 11) by (split; [ discriminate | reflexivity ]).
  split.
  - destruct (zero_duration_flips_on_every_new_time (Start 10 (new 0 0)) 11
                eq_refl eq_refl R11 R10) as [_ [H _]].
    rewrite H; [ reflexivity | discriminate ].
  - destruct (zero_duration_flips_on_every_new_time (Start 10 (new 0 0)) 10
                eq_refl eq_refl R10 R10) as [H _].
    apply H. reflexivity.
Defined.

(** X12: the period is measured from the call that flipped, not from a
    fixed schedule.  If the first flip after [Start] is made [lag]
    milliseconds late, then [Update (t0 + 2D + 2)], which would flip a
    punctually polled timer, changes nothing; the next flip is due
    [lag] milliseconds later. *)
Theorem late_poll_delays_next_flip
  (t : StateToggleTimer) (t0 D lag : Z) :
  m_duration t = D ->
  0 <= D ->
  0 < lag <= D + 1 ->
  D + 1 + lag < ULong.modulus ->
  let s1 := Update (ULong.wrap (t0 + D + 1 + lag)) (Start t0 t) in
  IsOn s1 = false
  /\ Update (ULong.wrap (t0 + 2 * D + 2)) s1 = s1
  /\ IsOn (Update (ULong.wrap (t0 + 2 * D + 2 + lag)) s1) = true.
Proof.
  intros HD H0 Hlag Hfit s1.
  assert (Hm : ULong.modulus = 4294967296) by reflexivity.
  assert (S1 : s1 = set_m_bIsOn false
                      (set_m_timer (ULong.wrap (t0 + D + 1 + lag))
                                   (Start t0 t))).
  { subst s1. rewrite Update_started_elapsed.
    - reflexivity.
    - reflexivity.
    - cbn [m_timer m_duration set_m_bIsOn set_m_timer set_m_bHasStarted Start].
      replace (t0 + D + 1 + lag) with (t0 + (D + 1 + lag)) by lia.
      rewrite ULongFacts.sub_wrap_add, HD; [ lia | ].
      unfold ULong.in_range. lia. }
  split; [ rewrite S1; reflexivity | ]. split.
  - apply Update_started_waiting; [ rewrite S1; reflexivity | ].
    rewrite S1.
    cbn [m_timer m_duration set_m_bIsOn set_m_timer set_m_bHasStarted Start].
    replace (t0 + D + 1 + lag) with (t0 + (D + 1 + lag)) by lia.
    replace (t0 + 2 * D + 2) with (t0 + (2 * D + 2)) by lia.
    rewrite ULongFacts.sub_wrap_wrap, HD; [ lia | ].
    unfold ULong.in_range. lia.
  - rewrite Update_started_elapsed.
    + rewrite S1. reflexivity.
    + rewrite S1. reflexivity.
    + rewrite S1.
      cbn [m_timer m_duration set_m_bIsOn set_m_timer set_m_bHasStarted Start].
      replace (t0 + D + 1 + lag) with (t0 + (D + 1 + lag)) by lia.
      replace (t0 + 2 * D + 2 + lag) with (t0 + (2 * D + 2 + lag)) by lia.
      rewrite ULongFacts.sub_wrap_wrap, HD; [ lia | ].
      unfold ULong.in_range. lia.
Qed.

Lemma late_poll_delays_next_flip_witness :
  let s1 := Update 541 (Start 0 (new 500 0)) in
  IsOn s1 = false
  /\ Update 1002 s1 = s1
  /\ IsOn (Update 1042 s1) = true.
Proof.
  assert (P : 0 <= 500) by discriminate.
  assert (L : 0 < 40 <= 500 + 1) by (split; [ reflexivity | discriminate ]).
  exact (late_poll_delays_next_flip (new 500 0) 0 500 40 eq_refl P L eq_refl).
Defined.

(** X13: the change detector compares states, it does not count flips.
    After a call of [HasStateChanged], one flip makes the next call
    return true, but two flips between two calls go unseen: the next
    call returns false. *)
Theorem two_flips_between_checks_go_unseen
  (t : StateToggleTimer) (now1 now2 : Z) :
  HasStarted t = true ->
  m_duration t < ULong.sub now1 (m_timer t) ->
  m_duration t < ULong.sub now2 now1 ->
  let t' := snd (HasStateChanged t) in
  fst (HasStateChanged (Update now1 t')) = true
  /\ fst (HasStateChanged (Update now2 (Update now1 t'))) = false.
Proof.
  intros Hs H1 H2. cbv zeta. unfold HasStarted in Hs.
  assert (U1 : Update now1 (snd (HasStateChanged t))
               = set_m_bIsOn (negb (m_bIsOn t))
                   (set_m_timer now1 (snd (HasStateChanged t)))).
  { apply (Update_started_elapsed now1 (snd (HasStateChanged t)));
      [ exact Hs | exact H1 ]. }
  rewrite U1. split.
  - unfold HasStateChanged. cbn. destruct (m_bIsOn t); reflexivity.
  - rewrite (Update_started_elapsed now2); [ | exact Hs | exact H2 ].
    unfold HasStateChanged. cbn. destruct (m_bIsOn t); reflexivity.
Qed.

Lemma two_flips_between_checks_go_unseen_witness :
  let t' := snd (HasStateChanged (Start 0 (new 500 0))) in
  fst (HasStateChanged (Update 501 t')) = true
  /\ fst (HasStateChanged (Update 1002 (Update 501 t'))) = false.
Proof.
  exact (two_flips_between_checks_go_unseen (Start 0 (new 500 0)) 501 1002
           eq_refl eq_refl eq_refl).
Defined.

(** X14: a new timer reports no change, and the first call that
    assigns the state ([Update], [Start] or [Stop]) is reported as a
    change, since the constructor leaves the state and the recorded
    previous state both off. *)
Theorem first_state_write_is_reported
  (duration millis : Z) (c : call) :
  writes_state c = true ->
  fst (HasStateChanged (new duration millis)) = false
  /\ fst (HasStateChanged (exec c (new duration millis))) = true
  /\ IsOn (exec c (new duration millis)) = true.
Proof.
  intros H. split; [ reflexivity | ].
  destruct c as [ d | ms | | now | ]; try discriminate H;
    split; reflexivity.
Qed.

Lemma first_state_write_is_reported_witness :
  fst (HasStateChanged (new 500 0)) = false
  /\ fst (HasStateChanged (Update 3 (new 500 0))) = true.
Proof.
  destruct (first_state_write_is_reported 500 0 (CallUpdate 3) eq_refl)
    as [H1 [H2 _]].
  split; [ exact H1 | exact H2 ].
Defined.

(** X15: only [SetDuration] changes the duration, and only [Start] and
    [Stop] change the started flag: [Update] and [HasStateChanged]
    leave both alone, and [Start] and [Stop] keep the duration. *)
Theorem duration_changes_only_by_SetDuration
  (cs : list call) (t : StateToggleTimer) :
  forallb not_SetDuration cs = true ->
  m_duration (run cs t) = m_duration t
  /\ (forall ds : list call,
        forallb not_Start_or_Stop ds = true ->
        HasStarted (run ds t) = HasStarted t).
Proof.
  intros H. split.
  - revert t H. induction cs as [ | c cs IH ]; intros t H; cbn in H.
    + reflexivity.
    + apply andb_prop in H. destruct H as [Hc Hcs].
      rewrite run_cons, (IH _ Hcs).
      destruct c as [ d | ms | | now | ]; try reflexivity.
      * discriminate Hc.
      * cbn. unfold Update. destruct (m_bHasStarted t); [ | reflexivity ].
        destruct (ULong.sub now (m_timer t) >? m_duration t); reflexivity.
  - intros ds. revert t. unfold HasStarted.
    induction ds as [ | c ds IH ]; intros t Hds; cbn in Hds.
    + reflexivity.
    + apply andb_prop in Hds. destruct Hds as [Hc Hds'].
      rewrite run_cons, (IH _ Hds').
      destruct c as [ d | ms | | now | ]; try reflexivity;
        try discriminate Hc.
      cbn. apply Update_m_bHasStarted.
Qed.

Lemma duration_changes_only_by_SetDuration_witness :
  m_duration (run [CallStart 5; CallUpdate 700; CallStop; CallHasStateChanged]
                  (new 500 0)) = 500.
Proof.
  destruct (duration_changes_only_by_SetDuration
              [CallStart 5; CallUpdate 700; CallStop; CallHasStateChanged]
              (new 500 0) eq_refl) as [H _].
  exact H.
Defined.

(** X16: [Start] always opens a full interval.  Whatever the timer's
    state before, it is on after [Start] and an [Update] at most the
    duration later (by the wrap-around clock) changes nothing. *)
Theorem Start_opens_full_interval (t : StateToggleTimer) (millis d : Z) :
  0 <= d <= m_duration t ->
  d < ULong.modulus ->
  IsOn (Start millis t) = true
  /\ Update (ULong.wrap (millis + d)) (Start millis t) = Start millis t.
Proof.
  intros Hd Hm. split; [ reflexivity | ].
  apply Update_started_waiting; [ reflexivity | ].
  cbn. rewrite ULongFacts.sub_wrap_add; [ lia | ].
  unfold ULong.in_range. lia.
Qed.

Lemma Start_opens_full_interval_witness :
  let t := Update 4294967000 (Start 4294966000 (new 500 0)) in
  IsOn t = false
  /\ ULong.wrap (4294967100 + 500) = 304
  /\ Update 304 (Start 4294967100 t) = Start 4294967100 t.
Proof.
  cbv zeta. split; [ reflexivity | ]. split; [ reflexivity | ].
  assert (R : 0 <= 500 <= 500) by (split; discriminate).
  destruct (Start_opens_full_interval
              (Update 4294967000 (Start 4294966000 (new 500 0)))
              4294967100 500 R eq_refl) as [_ H].
  exact H.
Defined.

End StateToggleTimerFacts.
